(** * Gumbel return-period analysis of annual rainfall totals (gumbel.py)

    A shallow embedding of the statistical core of [gumbel.py]:
    [analise_recorrencia] (mean, sample standard deviation, Weibull
    ranking, Gumbel fit, quantiles at the target return periods) and the
    per-year aggregation of [separar_dados_por_ano].

    Numbers are modelled as exact reals ([R]); numpy's float arrays become
    lists of reals.  [scipy.stats.gumbel_r.fit] is a library routine
    outside the repository: it is a parameter of the analysis, which may
    fail ([None], the exception scipy raises) or return [(loc, scale)].
    [gumbel_r.ppf] and [gumbel_r.cdf] are scipy's closed forms
    [loc - scale * ln (- ln p)] and [exp (- exp (- (x - loc) / scale))]. *)

From Stdlib Require Import Reals Psatz List Sorted Permutation ZArith.
From Stdlib Require Import Orders Mergesort Ascii.
Import ListNotations.

Open Scope R_scope.

(** ** numpy helpers *)

(** [np.sum] of a float array. *)
Fixpoint np_sum (xs : list R) : R :=
  match xs with
  | [] => 0
  | x :: rest => x + np_sum rest
  end.

(** [np.mean]. *)
Definition np_mean (xs : list R) : R := np_sum xs / INR (length xs).

(** [np.std(xs, ddof=1)]: square root of the sum of squared deviations
    divided by [n - 1]. *)
Definition np_std_ddof1 (xs : list R) : R :=
  let mu := np_mean xs in
  sqrt (np_sum (map (fun x => (x - mu) * (x - mu)) xs)
        / (INR (length xs) - 1)).

(** The order numpy's [np.sort] uses on floats. *)
Module ROrder <: TotalLeBool.
Definition t := R.
Definition leb (x y : R) : bool := if Rle_dec x y then true else false.
Lemma leb_total : forall x y, leb x y = true \/ leb y x = true.
Proof.
  intros x y; unfold leb.
  destruct (Rle_dec x y); [now left|].
  destruct (Rle_dec y x); [now right|lra].
Qed.
End ROrder.

Module RSort := Sort ROrder.

(** [np.sort] (ascending). *)
Definition np_sort (xs : list R) : list R := RSort.sort xs.

(** [np.arange(1, n + 1)] as reals. *)
Definition arange1 (n : nat) : list R := map INR (seq 1 n).

(** ** The Gumbel (maxima) distribution of scipy *)

(** [gumbel_r.ppf(p, loc=loc, scale=scale)]. *)
Definition gumbel_ppf (loc scale p : R) : R := loc - scale * ln (- ln p).

(** [gumbel_r.cdf(x, loc=loc, scale=scale)]. *)
Definition gumbel_cdf (loc scale x : R) : R :=
  exp (- exp (- ((x - loc) / scale))).

(** ** analise_recorrencia *)

(** [T_alvo = np.array([2, 5, 10, 25, 50, 100, 1000, 10000])]. *)
Definition T_alvo : list Z := [2; 5; 10; 25; 50; 100; 1000; 10000]%Z.

(** [P_alvo = 1 / T_alvo]. *)
Definition P_alvo : list R := map (fun T => 1 / IZR T) T_alvo.

(** [Q_T = gumbel_r.ppf(1 - P_alvo, loc=loc, scale=scale)]. *)
Definition Q_T (loc scale : R) : list R :=
  map (fun P => gumbel_ppf loc scale (1 - P)) P_alvo.

(** [totais_ordenados = np.sort(totais_anuais)[::-1]]. *)
Definition totais_ordenados (totais_anuais : list R) : list R :=
  rev (np_sort totais_anuais).

(** [P = m / (n + 1)] with [m = np.arange(1, n + 1)]. *)
Definition P_weibull (n : nat) : list R :=
  map (fun m => m / INR (n + 1)) (arange1 n).

(** [T_empirico = 1 / P]. *)
Definition T_empirico (n : nat) : list R :=
  map (fun p => 1 / p) (P_weibull n).

(** The column [1 / np.arange(1, len(resumo) + 1) * (len(resumo) + 1)]
    written to the sheet 'Dados para Análise'. *)
Definition T_empirico_export (n : nat) : list R :=
  map (fun m => 1 / m * INR (n + 1)) (arange1 n).

(** *** The same two columns in float64

    numpy computes both columns in IEEE-754 binary64.  A positive normal
    double is a pair [(M, E)] standing for [M * 2 ^ E] with
    [2 ^ 52 <= M < 2 ^ 53]; [arredonda_pos p q] is the double nearest to
    the positive rational [p / q], ties to even.  The exponent range is
    not modelled: every value below lies between [1 / (n + 1)] and
    [n + 1], far from overflow and from subnormals. *)
Definition f64 := (Z * Z)%type.

Definition arredonda_pos (p q : Z) : f64 :=
  let e0 := (Z.log2 p - Z.log2 q)%Z in
  let num e := if (e <=? 0)%Z then (p * 2 ^ (- e))%Z else p in
  let den e := if (e <=? 0)%Z then q else (q * 2 ^ e)%Z in
  let normal e := andb (2 ^ 52 * den e <=? num e)%Z (num e <? 2 ^ 53 * den e)%Z in
  let e := if normal (e0 - 53)%Z then (e0 - 53)%Z
           else if normal (e0 - 52)%Z then (e0 - 52)%Z else (e0 - 51)%Z in
  let quo := (num e / den e)%Z in
  let r := (num e mod den e)%Z in
  let m := match Z.compare (2 * r) (den e) with
           | Lt => quo | Gt => (quo + 1)%Z | Eq => (quo + quo mod 2)%Z end in
  if (m =? 2 ^ 53)%Z then ((2 ^ 52)%Z, (e + 1)%Z) else (m, e).

(** The double nearest to [p * 2 ^ s / q]. *)
Definition escala (p q s : Z) : f64 :=
  if (0 <=? s)%Z then arredonda_pos (p * 2 ^ s) q
  else arredonda_pos p (q * 2 ^ (- s)).

(** A positive integer converted to float64. *)
Definition of_int (k : Z) : f64 := arredonda_pos k 1.

(** Float64 division and multiplication of positive doubles. *)
Definition fdiv (a b : f64) : f64 := escala (fst a) (fst b) (snd a - snd b).

Definition fmul (a b : f64) : f64 := escala (fst a * fst b) 1 (snd a + snd b).

(** The 64-bit pattern of a positive normal double: biased exponent
    [E + 1075] above the 52 stored mantissa bits. *)
Definition bits_f64 (x : f64) : Z :=
  ((snd x + 1075) * 2 ^ 52 + (fst x - 2 ^ 52))%Z.

(** [m = np.arange(1, n + 1)] (int64), [P = m / (n + 1)] and
    [T_empirico = 1 / P], each operation rounded to float64. *)
Definition T_empirico_f64 (n : nat) : list f64 :=
  map (fun m => fdiv (of_int 1) (fdiv (of_int m) (of_int (Z.of_nat n + 1))))
      (map Z.of_nat (seq 1 n)).

(** [1 / np.arange(1, n + 1) * (n + 1)], each operation rounded to
    float64. *)
Definition T_empirico_export_f64 (n : nat) : list f64 :=
  map (fun m => fmul (fdiv (of_int 1) (of_int m)) (of_int (Z.of_nat n + 1)))
      (map Z.of_nat (seq 1 n)).

(** The dictionary returned by [analise_recorrencia]. *)
Record resultado := {
  media : R;
  desvio_padrao : R;
  n_amostras : nat;
  loc : R;
  scale : R;
  tempos_recorrencia : list Z;
  totais_estimados : list R;
  totais_observados : list R
}.

Section Analise.

(** [scipy.stats.gumbel_r.fit]: [None] when scipy raises. *)
Variable gumbel_r_fit : list R -> option (R * R).

(** [analise_recorrencia(totais_anuais)], without its plotting side
    effects.  The ranking ([totais_ordenados], [T_empirico]) only feeds
    the plot. *)
Definition analise_recorrencia (totais_anuais : list R) : option resultado :=
  let media := np_mean totais_anuais in
  let desvio_padrao := np_std_ddof1 totais_anuais in
  let n := length totais_anuais in
  match gumbel_r_fit totais_anuais with
  | None => None
  | Some (l, s) =>
      Some {| media := media;
              desvio_padrao := desvio_padrao;
              n_amostras := n;
              loc := l;
              scale := s;
              tempos_recorrencia := T_alvo;
              totais_estimados := Q_T l s;
              totais_observados := totais_anuais |}
  end.

End Analise.

(** ** Annual aggregation: [groupby('Ano').agg({'Total': ['sum', 'max', 'count']})] *)

(** A row of the input sheet, after [dados['Ano'] = ...dt.year]. *)
Record observacao := { ano_obs : Z; total_obs : R }.

(** A row of [resumo]. *)
Record resumo_anual := {
  ano : Z;
  total_anual : R;
  chuva_maxima : R;
  meses_com_dados : nat
}.

(** Adds one observation to the group of its year; groups are kept sorted
    by year, as [groupby] does by default. *)
Fixpoint agrupar (o : observacao) (rs : list resumo_anual) : list resumo_anual :=
  match rs with
  | [] => [{| ano := ano_obs o; total_anual := total_obs o;
              chuva_maxima := total_obs o; meses_com_dados := 1 |}]
  | r :: rest =>
      if Z.eqb (ano_obs o) (ano r) then
        {| ano := ano r; total_anual := total_anual r + total_obs o;
           chuva_maxima := Rmax (chuva_maxima r) (total_obs o);
           meses_com_dados := S (meses_com_dados r) |} :: rest
      else if Z.ltb (ano_obs o) (ano r) then
        {| ano := ano_obs o; total_anual := total_obs o;
           chuva_maxima := total_obs o; meses_com_dados := 1 |} :: rs
      else r :: agrupar o rest
  end.

(** The summary [resumo]: observations folded in order of appearance. *)
Definition resumo (dados : list observacao) : list resumo_anual :=
  fold_left (fun rs o => agrupar o rs) dados [].

(** Observation of the per-year rows of [resumo]: the row of year [y]
    (the [loc] of the grouped frame), if any. *)
Definition linha_do_ano (y : Z) (rs : list resumo_anual) : option resumo_anual :=
  find (fun r => Z.eqb (ano r) y) rs.

(** The totals of the observations of year [y], in input order: the
    group [groupby] hands to the aggregations. *)
Definition totais_do_ano (y : Z) (dados : list observacao) : list R :=
  map total_obs (filter (fun o => Z.eqb (ano_obs o) y) dados).

(** One aggregation step on the row of a single year, as [agrupar] does
    it: a new row for the first observation, otherwise sum, max and count
    updated. *)
Definition passo_ano (y : Z) (acc : option resumo_anual) (t : R) : resumo_anual :=
  match acc with
  | None => {| ano := y; total_anual := t; chuva_maxima := t;
               meses_com_dados := 1 |}
  | Some r => {| ano := ano r; total_anual := total_anual r + t;
                 chuva_maxima := Rmax (chuva_maxima r) t;
                 meses_com_dados := S (meses_com_dados r) |}
  end.

Definition acumula_ano (y : Z) (acc : option resumo_anual) (ts : list R)
    : option resumo_anual :=
  fold_left (fun acc t => Some (passo_ano y acc t)) ts acc.

(** ** selecionar_anos *)

(** Insertion of a year into a strictly ascending list of years. *)
Fixpoint insere_ano (y : Z) (ys : list Z) : list Z :=
  match ys with
  | [] => [y]
  | y' :: rest =>
      if Z.eqb y y' then ys
      else if Z.ltb y y' then y :: ys
      else y' :: insere_ano y rest
  end.

(** [sorted(dados['Ano'].dropna().unique())]: the distinct years of the
    data in ascending order (years are integers here, so [dropna] keeps
    them all). *)
Definition anos_disponiveis (dados : list observacao) : list Z :=
  fold_left (fun ys o => insere_ano (ano_obs o) ys) dados [].

(** Python's [l[i]]: negative indices count from the end; an index out of
    [-len(l), len(l)) raises [IndexError] ([None]). *)
Definition py_getitem {A} (l : list A) (i : Z) : option A :=
  let n := Z.of_nat (length l) in
  if (0 <=? i)%Z && (i <? n)%Z then nth_error l (Z.to_nat i)
  else if (- n <=? i)%Z && (i <? 0)%Z then nth_error l (Z.to_nat (n + i))
  else None.

(** A list comprehension whose element expression may raise: [None] as
    soon as one element raises. *)
Fixpoint py_listcomp {A B} (f : A -> option B) (l : list A) : option (list B) :=
  match l with
  | [] => Some []
  | x :: rest =>
      match f x with
      | None => None
      | Some y =>
          match py_listcomp f rest with
          | None => None
          | Some ys => Some (y :: ys)
          end
      end
  end.

(** The text typed at the prompt, once read: ['todos'] (in any case), a
    comma-separated list of integers, or a list with a piece [int] rejects
    ([ValueError]).  Reading the text itself is not modelled. *)
Inductive entrada := Todos | Numeros (ks : list Z) | NaoNumerica.

(** [selecionar_anos(dados)] without its printing: both exceptions
    fall back to the whole data. *)
Definition selecionar_anos (dados : list observacao) (selecao : entrada)
    : list observacao :=
  match selecao with
  | Todos => dados
  | NaoNumerica => dados
  | Numeros ks =>
      let anos := anos_disponiveis dados in
      let indices := map (fun k => (k - 1)%Z) ks in
      match py_listcomp (py_getitem anos) indices with
      | None => dados
      | Some anos_selecionados =>
          filter (fun o => existsb (Z.eqb (ano_obs o)) anos_selecionados) dados
      end
  end.

(** ** Output file name *)

(** File names are lists of ASCII characters; Python's [str.lower] then
    maps ['A' .. 'Z'] to ['a' .. 'z'] and leaves every other character. *)
Definition lower_char (c : ascii) : ascii :=
  let n := nat_of_ascii c in
  if (65 <=? n)%nat && (n <=? 90)%nat then ascii_of_nat (n + 32) else c.

(** [s.lower()]. *)
Definition py_lower (s : list ascii) : list ascii := map lower_char s.

Fixpoint py_startswith (s p : list ascii) {struct p} : bool :=
  match p, s with
  | [], _ => true
  | _, [] => false
  | a :: p', b :: s' => Ascii.eqb a b && py_startswith s' p'
  end.

(** [s.endswith(suf)]. *)
Definition py_endswith (s suf : list ascii) : bool :=
  py_startswith (rev s) (rev suf).

(** ['.xlsx']. *)
Definition xlsx : list ascii := ["."; "x"; "l"; "s"; "x"]%char.

(** The check at the top of [separar_dados_por_ano]:
    [if not arquivo_saida.lower().endswith('.xlsx'): arquivo_saida += '.xlsx']. *)
Definition separar_extensao (arquivo_saida : list ascii) : list ascii :=
  if py_endswith (py_lower arquivo_saida) xlsx then arquivo_saida
  else arquivo_saida ++ xlsx.

(** [s.rfind(c)]: the index of the last [c] in [s], or [-1]. *)
Fixpoint rfind_aux (c : ascii) (s : list ascii) (i acc : Z) : Z :=
  match s with
  | [] => acc
  | x :: rest => rfind_aux c rest (i + 1) (if Ascii.eqb x c then i else acc)
  end.

Definition rfind (c : ascii) (s : list ascii) : Z := rfind_aux c s 0 (-1).

(** The platform [os.path] belongs to: [posixpath] or [ntpath]. *)
Inductive plataforma := Posix | Windows.

(** [os.path.splitext(p)], i.e. [genericpath._splitext(p, sep, altsep,
    extsep)] with extension separator ['.']: on POSIX [sep = '/'] and no
    [altsep]; on Windows [sep = '\'] and [altsep = '/'], and [sepIndex] is
    the larger of the two [rfind]s.  The extension starts at the last dot
    after the last separator, unless only dots precede that dot in the
    last path component. *)
Definition splitext (pl : plataforma) (p : list ascii) : list ascii * list ascii :=
  let sepIndex := match pl with
                  | Posix => rfind "/"%char p
                  | Windows => Z.max (rfind "\"%char p) (rfind "/"%char p)
                  end in
  let dotIndex := rfind "."%char p in
  if (sepIndex <? dotIndex)%Z then
    let filenameIndex := (sepIndex + 1)%Z in
    if existsb (fun ch => negb (Ascii.eqb ch "."%char))
         (firstn (Z.to_nat (dotIndex - filenameIndex))
                 (skipn (Z.to_nat filenameIndex) p))
    then (firstn (Z.to_nat dotIndex) p, skipn (Z.to_nat dotIndex) p)
    else (p, [])
  else (p, []).

(** ['AnaliseCompleta.xlsx']. *)
Definition saida_padrao : list ascii :=
  ["A"; "n"; "a"; "l"; "i"; "s"; "e"; "C"; "o"; "m"; "p"; "l"; "e"; "t"; "a";
   "."; "x"; "l"; "s"; "x"]%char.

(** The output file name [main] passes on: the typed text or, when it is
    empty, the default; then
    [if not arquivo_saida.lower().endswith('.xlsx'):
       arquivo_saida = os.path.splitext(arquivo_saida)[0] + '.xlsx']. *)
Definition main_arquivo_saida (pl : plataforma) (digitado : list ascii) : list ascii :=
  let arquivo_saida := match digitado with [] => saida_padrao | _ => digitado end in
  if py_endswith (py_lower arquivo_saida) xlsx then arquivo_saida
  else fst (splitext pl arquivo_saida) ++ xlsx.

(** ** Per-year sheets of the workbook *)

(** Step 5 of the export: for each [ano] of
    [sorted(dados_filtrados['Ano'].unique())] a sheet with
    [dados_filtrados[dados_filtrados['Ano'] == ano]], in data order. *)
Definition abas_por_ano (dados_filtrados : list observacao)
    : list (Z * list observacao) :=
  map (fun ano => (ano, filter (fun o => Z.eqb (ano_obs o) ano) dados_filtrados))
      (anos_disponiveis dados_filtrados).

(** ** Auxiliary lemmas *)

(** The float64 model against known bit patterns: [1 / 3], [3 / 5],
    [1 / (3 / 5)] and [1 / 3 * 5]. *)
Lemma f64_padroes :
  bits_f64 (fdiv (of_int 1) (of_int 3)) = 0x3FD5555555555555%Z /\
  bits_f64 (fdiv (of_int 3) (of_int 5)) = 0x3FE3333333333333%Z /\
  bits_f64 (fdiv (of_int 1) (fdiv (of_int 3) (of_int 5))) = 0x3FFAAAAAAAAAAAAB%Z /\
  bits_f64 (fmul (fdiv (of_int 1) (of_int 3)) (of_int 5)) = 0x3FFAAAAAAAAAAAAA%Z /\
  bits_f64 (of_int 5) = 0x4014000000000000%Z /\
  bits_f64 (fdiv (of_int 1) (of_int 10)) = 0x3FB999999999999A%Z.
Proof. vm_compute; repeat split. Qed.

Lemma INR_S_pos (n : nat) : 0 < INR (S n).
Proof. apply lt_0_INR; lia. Qed.

Lemma np_mean_100_200_300 : np_mean [100; 200; 300] = 200.
Proof. unfold np_mean; simpl; field. Qed.

(** ** Claims *)

(** C3: the standard deviation uses the divisor [n - 1] ([ddof=1]): on
    [100, 200, 300] the mean is 200 and the standard deviation is 100,
    and the analysis reports exactly these values whenever the fit
    succeeds. *)
Theorem std_ddof1_100_200_300 (gumbel_r_fit : list R -> option (R * R)) :
  np_mean [100; 200; 300] = 200 /\
  np_std_ddof1 [100; 200; 300] = 100 /\
  match analise_recorrencia gumbel_r_fit [100; 200; 300] with
  | Some r => media r = 200 /\ desvio_padrao r = 100
  | None => True
  end.
Proof.
  assert (Hs : np_std_ddof1 [100; 200; 300] = 100).
  { unfold np_std_ddof1; rewrite np_mean_100_200_300.
    replace (np_sum _ / (INR (length [100; 200; 300]) - 1)) with (100 * 100)
      by (simpl; field).
    apply sqrt_square; lra. }
  split; [exact np_mean_100_200_300|]; split; [exact Hs|].
  unfold analise_recorrencia.
  destruct (gumbel_r_fit [100; 200; 300]) as [[l s]|]; simpl; auto.
  split; [exact np_mean_100_200_300 | exact Hs].
Qed.

(** C7: aggregating observations of years [2020, 2020, 2021] with totals
    [10, 20, 5] yields the rows (2020, 30, 20, 2) and (2021, 5, 5, 1). *)
Theorem resumo_2020_2021 :
  resumo [ {| ano_obs := 2020; total_obs := 10 |};
           {| ano_obs := 2020; total_obs := 20 |};
           {| ano_obs := 2021; total_obs := 5 |} ]%Z =
  [ {| ano := 2020; total_anual := 30; chuva_maxima := 20; meses_com_dados := 2 |};
    {| ano := 2021; total_anual := 5; chuva_maxima := 5; meses_com_dados := 1 |} ]%Z.
Proof.
  unfold resumo; cbn [fold_left agrupar ano_obs total_obs ano total_anual
                      chuva_maxima meses_com_dados Z.eqb Z.ltb Z.compare
                      Pos.eqb Pos.compare Pos.compare_cont].
  rewrite Rmax_right by lra.
  do 2 f_equal; lra.
Qed.

Lemma in_arange1 (n : nat) (m : R) :
  In m (arange1 n) -> exists k, (1 <= k <= n)%nat /\ m = INR k.
Proof.
  unfold arange1; rewrite in_map_iff; intros [k [<- Hk]].
  apply in_seq in Hk; exists k; split; [lia | reflexivity].
Qed.

Lemma T_empirico_formula (n : nat) :
  T_empirico n = map (fun m => INR (n + 1) / INR m) (seq 1 n).
Proof.
  assert (Hn : 0 < INR (n + 1)) by (apply lt_0_INR; lia).
  unfold T_empirico, P_weibull, arange1.
  rewrite !map_map; apply map_ext_in; intros k Hk.
  apply in_seq in Hk.
  assert (0 < INR k) by (apply lt_0_INR; lia).
  field; lra.
Qed.

(** C8: every Weibull plotting position [m / (n + 1)] of a sample of size
    [n] lies strictly between 0 and 1. *)
Theorem P_weibull_bounds (n : nat) (p : R) :
  In p (P_weibull n) -> 0 < p < 1.
Proof.
  unfold P_weibull; rewrite in_map_iff; intros [m [<- Hm]].
  apply in_arange1 in Hm as [k [Hk ->]].
  assert (Hk0 : 0 < INR k) by (apply lt_0_INR; lia).
  assert (Hkn : INR k < INR (n + 1)) by (apply lt_INR; lia).
  split.
  - apply Rdiv_lt_0_compat; lra.
  - apply Rmult_lt_reg_r with (INR (n + 1)); [lra|].
    unfold Rdiv; rewrite Rmult_assoc, Rinv_l by lra; lra.
Qed.

Lemma P_weibull_bounds_witness :
  In (nth 0 (P_weibull 5) 0) (P_weibull 5) /\
  0 < nth 0 (P_weibull 5) 0 < 1.
Proof.
  assert (H : In (nth 0 (P_weibull 5) 0) (P_weibull 5))
    by (apply nth_In; simpl; lia).
  split; [exact H | apply (P_weibull_bounds 5); exact H].
Defined.

(** C9 (as corrected): in exact arithmetic the two formulas for the
    empirical return period, [1 / P] in [analise_recorrencia] and
    [1 / np.arange(1, n + 1) * (n + 1)] in the export of
    [separar_dados_por_ano], give the same sequence for every sample size
    [n], namely [(n + 1) / m] for rank [m]; the float64 values numpy
    computes may differ in the last bit, as they do for [n = 4]. *)
Theorem T_empirico_export_eq :
  (forall n : nat,
     T_empirico n = T_empirico_export n /\
     T_empirico n = map (fun m => INR (n + 1) / INR m) (seq 1 n)) /\
  exists n : nat, T_empirico_f64 n <> T_empirico_export_f64 n.
Proof.
  split.
  - intros n.
    assert (Hn : 0 < INR (n + 1)) by (apply lt_0_INR; lia).
    split; [|apply T_empirico_formula].
    unfold T_empirico, T_empirico_export, P_weibull.
    rewrite map_map; apply map_ext_in; intros m Hm.
    apply in_arange1 in Hm as [k [Hk ->]].
    assert (0 < INR k) by (apply lt_0_INR; lia).
    field; lra.
  - exists 4%nat; vm_compute; intros H; discriminate H.
Qed.

(** Counterexample to C9 in float64: for [n = 4] and rank [m = 3],
    [1 / (3 / 5)] is 1.6666666666666667 (0x3FFAAAAAAAAAAAAB) while
    [1 / 3 * 5] is 1.6666666666666665 (0x3FFAAAAAAAAAAAAA). *)
Lemma T_empirico_float_difere :
  nth 2 (T_empirico_f64 4) (0%Z, 0%Z) = (7505999378950827%Z, (-52)%Z) /\
  nth 2 (T_empirico_export_f64 4) (0%Z, 0%Z) = (7505999378950826%Z, (-52)%Z) /\
  T_empirico_f64 4 <> T_empirico_export_f64 4.
Proof.
  split; [vm_compute; reflexivity|].
  split; [vm_compute; reflexivity|].
  vm_compute; intros H; discriminate H.
Qed.

(** C10: whenever [analise_recorrencia] returns, its field
    ['totais_observados'] is the input sequence itself and ['n_amostras']
    its length; the sorted copy used for the ranking is a separate value,
    so the input is left as it was. *)
Theorem analise_preserva_entrada
    (gumbel_r_fit : list R -> option (R * R)) (totais_anuais : list R) :
  match analise_recorrencia gumbel_r_fit totais_anuais with
  | Some r => totais_observados r = totais_anuais /\
              n_amostras r = length totais_anuais
  | None => True
  end.
Proof.
  unfold analise_recorrencia.
  destruct (gumbel_r_fit totais_anuais) as [[l s]|]; simpl; auto.
Qed.

(** C2: for the parameters [(loc, scale)] of every successful fit, the
    estimates are [gumbel_r.ppf(1 - 1/T)] taken at each target period
    [T] of [2, 5, 10, 25, 50, 100, 1000, 10000], one per period and in
    that ascending order. *)
Theorem estimativas_por_T
    (gumbel_r_fit : list R -> option (R * R)) (totais_anuais : list R) :
  StronglySorted Z.lt T_alvo /\
  match analise_recorrencia gumbel_r_fit totais_anuais with
  | Some r =>
      tempos_recorrencia r = T_alvo /\
      totais_estimados r =
        map (fun T => gumbel_ppf (loc r) (scale r) (1 - 1 / IZR T)) T_alvo /\
      length (totais_estimados r) = length T_alvo
  | None => True
  end.
Proof.
  split.
  - unfold T_alvo; repeat constructor.
  - unfold analise_recorrencia.
    destruct (gumbel_r_fit totais_anuais) as [[l s]|]; [|exact I].
    unfold Q_T, P_alvo; cbn [tempos_recorrencia totais_estimados loc scale].
    rewrite map_map; repeat split; rewrite ?length_map; reflexivity.
Qed.

(** ** The quantile at a return period *)

Lemma prob_nao_excedencia_bounds (T : R) : 1 < T -> 0 < 1 - 1 / T < 1.
Proof.
  intros HT.
  assert (0 < 1 / T < 1).
  { split; [apply Rdiv_lt_0_compat; lra|].
    apply Rmult_lt_reg_r with T; [lra|].
    unfold Rdiv; rewrite Rmult_assoc, Rinv_l by lra; lra. }
  lra.
Qed.

Lemma ln_neg_pos (p : R) : 0 < p < 1 -> 0 < - ln p.
Proof.
  intros Hp.
  pose proof (ln_increasing p 1 (proj1 Hp) (proj2 Hp)) as H.
  rewrite ln_1 in H; lra.
Qed.

Lemma gumbel_ppf_increasing (l s p1 p2 : R) :
  0 < s -> 0 < p1 -> p1 < p2 -> p2 < 1 ->
  gumbel_ppf l s p1 < gumbel_ppf l s p2.
Proof.
  intros Hs H1 H12 H2; unfold gumbel_ppf.
  pose proof (ln_neg_pos p2 (conj (Rlt_trans _ _ _ H1 H12) H2)) as Hl2.
  pose proof (ln_increasing p1 p2 H1 H12) as Hl.
  assert (ln (- ln p2) < ln (- ln p1)) by (apply ln_increasing; lra).
  pose proof (Rmult_lt_compat_l s _ _ Hs H); lra.
Qed.

Lemma prob_nao_excedencia_lt (T1 T2 : R) :
  1 < T1 -> T1 < T2 -> 1 - 1 / T1 < 1 - 1 / T2.
Proof.
  intros H1 H12.
  assert (1 / T2 < 1 / T1).
  { unfold Rdiv; rewrite !Rmult_1_l; apply Rinv_lt_contravar; nra. }
  lra.
Qed.

Lemma gumbel_ppf_T_lt (l s T1 T2 : R) :
  0 < s -> 1 < T1 -> T1 < T2 ->
  gumbel_ppf l s (1 - 1 / T1) < gumbel_ppf l s (1 - 1 / T2).
Proof.
  intros Hs H1 H12.
  pose proof (prob_nao_excedencia_bounds T1 H1).
  pose proof (prob_nao_excedencia_bounds T2 ltac:(lra)).
  pose proof (prob_nao_excedencia_lt T1 T2 H1 H12).
  apply gumbel_ppf_increasing; lra.
Qed.

Lemma gumbel_cdf_ppf (l s p : R) :
  0 < s -> 0 < p < 1 -> gumbel_cdf l s (gumbel_ppf l s p) = p.
Proof.
  intros Hs Hp; unfold gumbel_cdf, gumbel_ppf.
  replace (- ((l - s * ln (- ln p) - l) / s)) with (ln (- ln p))
    by (field; lra).
  rewrite exp_ln by (apply ln_neg_pos; exact Hp).
  rewrite Ropp_involutive, exp_ln by lra; reflexivity.
Qed.

(** C5: for every scale [> 0] the estimates increase strictly along the
    target periods: an earlier (smaller) period always has a smaller
    estimate than any later (larger) one. *)
Theorem Q_T_crescente (l s : R) :
  0 < s -> StronglySorted Rlt (Q_T l s).
Proof.
  intros Hs.
  unfold Q_T, P_alvo, T_alvo; cbn [map].
  repeat constructor; apply gumbel_ppf_T_lt; try lra;
    repeat (apply IZR_lt || apply IZR_lt); lia.
Qed.

Lemma Q_T_crescente_witness :
  0 < 1 /\ StronglySorted Rlt (Q_T 0 1).
Proof. split; [lra | apply Q_T_crescente; lra]. Defined.

(** C6: for every scale [> 0] and every target period [T], the fitted CDF
    at the estimate [Q(T)] gives back [1 - 1/T] (exactly, hence within
    [1e-6]). *)
Theorem cdf_Q_T_ida_e_volta (l s : R) (T : Z) (q : R) :
  0 < s -> In (T, q) (combine T_alvo (Q_T l s)) ->
  gumbel_cdf l s q = 1 - 1 / IZR T /\
  Rabs (gumbel_cdf l s q - (1 - 1 / IZR T)) <= 1 / 1000000.
Proof.
  intros Hs Hin.
  assert (Hc : gumbel_cdf l s q = 1 - 1 / IZR T).
  { unfold Q_T, P_alvo, T_alvo in Hin; cbn [map combine In] in Hin.
    repeat destruct Hin as [Hin | Hin];
      try (injection Hin as <- <-; apply gumbel_cdf_ppf;
           [exact Hs | apply prob_nao_excedencia_bounds; lra]);
      contradiction. }
  split; [exact Hc|].
  rewrite Hc, Rminus_diag, Rabs_R0; lra.
Qed.

Lemma cdf_Q_T_ida_e_volta_witness :
  0 < 1 /\ In (2%Z, gumbel_ppf 0 1 (1 - 1 / 2)) (combine T_alvo (Q_T 0 1)) /\
  gumbel_cdf 0 1 (gumbel_ppf 0 1 (1 - 1 / 2)) = 1 - 1 / IZR 2 /\
  Rabs (gumbel_cdf 0 1 (gumbel_ppf 0 1 (1 - 1 / 2)) - (1 - 1 / IZR 2))
    <= 1 / 1000000.
Proof.
  assert (Hin : In (2%Z, gumbel_ppf 0 1 (1 - 1 / 2)) (combine T_alvo (Q_T 0 1)))
    by (left; reflexivity).
  split; [lra|]; split; [exact Hin|].
  apply (cdf_Q_T_ida_e_volta 0 1 2%Z); [lra | exact Hin].
Defined.

(** ** Empirical ranking *)

Lemma StronglySorted_app_single {A} (Rel : A -> A -> Prop) (l : list A) (a : A) :
  StronglySorted Rel l -> Forall (fun x => Rel x a) l ->
  StronglySorted Rel (l ++ [a]).
Proof.
  induction l as [|x l IH]; intros Hs Hf; simpl.
  - repeat constructor.
  - inversion Hs as [|? ? Hs' Hx]; subst; inversion Hf; subst.
    constructor; [now apply IH|].
    apply Forall_app; split; [exact Hx | now constructor].
Qed.

Lemma StronglySorted_rev {A} (Rel : A -> A -> Prop) (l : list A) :
  StronglySorted Rel l -> StronglySorted (fun x y => Rel y x) (rev l).
Proof.
  induction l as [|a l IH]; intros Hs; simpl; [constructor|].
  inversion Hs as [|? ? Hs' Ha]; subst.
  apply StronglySorted_app_single; [now apply IH|].
  apply Forall_forall; intros x Hx; apply in_rev in Hx.
  now apply (proj1 (Forall_forall _ _) Ha).
Qed.

Lemma np_sort_sorted (xs : list R) : StronglySorted Rle (np_sort xs).
Proof.
  assert (Ht : Transitive (fun x y => is_true (ROrder.leb x y))).
  { intros x y z; unfold is_true, ROrder.leb.
    destruct (Rle_dec x y), (Rle_dec y z), (Rle_dec x z); auto; lra. }
  pose proof (RSort.StronglySorted_sort xs Ht) as H.
  unfold np_sort; induction H as [|a l Hl IH Ha]; constructor; [exact IH|].
  revert Ha; apply Forall_impl; intros y; unfold is_true, ROrder.leb.
  destruct (Rle_dec a y); congruence.
Qed.

Lemma T_empirico_seq_decrescente (d : R) (a n : nat) :
  0 < d -> (1 <= a)%nat ->
  StronglySorted Rgt (map (fun m => d / INR m) (seq a n)).
Proof.
  intros Hd; revert a; induction n as [|n IH]; intros a Ha; simpl;
    constructor; [apply IH; lia|].
  apply Forall_forall; intros y Hy; apply in_map_iff in Hy as [k [<- Hk]].
  apply in_seq in Hk.
  assert (0 < INR a) by (apply lt_0_INR; lia).
  assert (INR a < INR k) by (apply lt_INR; lia).
  unfold Rgt, Rdiv; apply Rmult_lt_compat_l; [exact Hd|].
  apply Rinv_lt_contravar; nra.
Qed.

(** C4: for every sequence of [n] annual totals the ranking has [n]
    points: the totals sorted in descending order (a permutation of the
    input) and the empirical periods [1 / (m / (n + 1))], strictly
    decreasing as the rank [m] goes from 1 to [n]. *)
Theorem ranking_empirico (totais_anuais : list R) :
  let n := length totais_anuais in
  length (totais_ordenados totais_anuais) = n /\
  length (T_empirico n) = n /\
  Permutation totais_anuais (totais_ordenados totais_anuais) /\
  StronglySorted Rge (totais_ordenados totais_anuais) /\
  StronglySorted Rgt (T_empirico n).
Proof.
  intros n.
  assert (Hp : Permutation totais_anuais (totais_ordenados totais_anuais)).
  { unfold totais_ordenados, np_sort.
    eapply perm_trans; [apply RSort.Permuted_sort | apply Permutation_rev]. }
  split; [symmetry; apply Permutation_length, Hp|].
  split; [unfold T_empirico, P_weibull, arange1; now rewrite !length_map, length_seq|].
  split; [exact Hp|].
  split.
  - unfold totais_ordenados.
    pose proof (StronglySorted_rev Rle _ (np_sort_sorted totais_anuais)) as H.
    induction H as [|a l Hl IH Ha]; constructor; [exact IH|].
    revert Ha; apply Forall_impl; intros y Hy; cbv beta in Hy; lra.
  - rewrite T_empirico_formula.
    apply T_empirico_seq_decrescente; [apply lt_0_INR; lia | lia].
Qed.

(** ** Failure of the analysis *)

(** [analise_recorrencia] has no check of its own on the sample (size or
    spread): it fails exactly when [gumbel_r.fit] raises, and otherwise
    returns the fitted parameters unchanged. *)
Lemma analise_falha_sse_ajuste_falha
    (gumbel_r_fit : list R -> option (R * R)) (totais_anuais : list R) :
  match analise_recorrencia gumbel_r_fit totais_anuais with
  | None => gumbel_r_fit totais_anuais = None
  | Some r => gumbel_r_fit totais_anuais = Some (loc r, scale r)
  end.
Proof.
  unfold analise_recorrencia.
  destruct (gumbel_r_fit totais_anuais) as [[l s]|]; reflexivity.
Qed.

(** ** The per-year summary [resumo] *)

Definition anos_crescentes (rs : list resumo_anual) : Prop :=
  StronglySorted Z.lt (map ano rs).

Lemma in_anos_agrupar (o : observacao) (rs : list resumo_anual) (y : Z) :
  In y (map ano (agrupar o rs)) <-> y = ano_obs o \/ In y (map ano rs).
Proof.
  induction rs as [|r rest IH]; simpl; [intuition congruence|].
  destruct (Z.eqb_spec (ano_obs o) (ano r)) as [He|He]; simpl.
  - rewrite He; intuition congruence.
  - destruct (Z.ltb (ano_obs o) (ano r)); simpl; [intuition congruence|].
    rewrite IH; intuition congruence.
Qed.

Lemma agrupar_crescente (o : observacao) (rs : list resumo_anual) :
  anos_crescentes rs -> anos_crescentes (agrupar o rs).
Proof.
  unfold anos_crescentes.
  induction rs as [|r rest IH]; intros Hs; simpl; [repeat constructor|].
  inversion Hs as [|? ? Hs' Hr]; subst.
  destruct (Z.eqb_spec (ano_obs o) (ano r)) as [He|He]; simpl.
  - constructor; assumption.
  - destruct (Z.ltb_spec (ano_obs o) (ano r)) as [Hl|Hl]; simpl.
    + constructor; [constructor; assumption|].
      constructor; [exact Hl|].
      revert Hr; apply Forall_impl; intros; lia.
    + constructor; [now apply IH|].
      apply Forall_forall; intros y Hy; apply in_anos_agrupar in Hy as [->|Hy].
      * lia.
      * exact (proj1 (Forall_forall _ _) Hr y Hy).
Qed.

Lemma linha_do_ano_ausente (y : Z) (rs : list resumo_anual) :
  Forall (fun a => (y < a)%Z) (map ano rs) -> linha_do_ano y rs = None.
Proof.
  induction rs as [|r rest IH]; intros Hf; [reflexivity|].
  simpl in Hf; inversion Hf; subst; unfold linha_do_ano; simpl.
  destruct (Z.eqb_spec (ano r) y); [lia|].
  now apply IH.
Qed.

Lemma linha_do_ano_agrupar (y : Z) (o : observacao) (rs : list resumo_anual) :
  anos_crescentes rs ->
  linha_do_ano y (agrupar o rs) =
  if Z.eqb (ano_obs o) y then Some (passo_ano y (linha_do_ano y rs) (total_obs o))
  else linha_do_ano y rs.
Proof.
  unfold anos_crescentes.
  induction rs as [|r rest IH]; intros Hs.
  - unfold linha_do_ano; simpl.
    destruct (Z.eqb_spec (ano_obs o) y); subst; reflexivity.
  - inversion Hs as [|? ? Hs' Hr]; subst.
    unfold linha_do_ano in *; simpl.
    destruct (Z.eqb_spec (ano_obs o) (ano r)) as [He|He].
    + simpl.
      destruct (Z.eqb_spec (ano r) y), (Z.eqb_spec (ano_obs o) y);
        try reflexivity; lia.
    + destruct (Z.ltb_spec (ano_obs o) (ano r)) as [Hl|Hl]; simpl.
      * destruct (Z.eqb_spec (ano_obs o) y) as [Hy|Hy]; simpl.
        -- subst y; destruct (Z.eqb_spec (ano r) (ano_obs o)); [lia|].
           change (find (fun r0 => (ano r0 =? ano_obs o)%Z) rest)
             with (linha_do_ano (ano_obs o) rest).
           rewrite linha_do_ano_ausente; [reflexivity|].
           revert Hr; apply Forall_impl; intros; lia.
        -- reflexivity.
      * destruct (Z.eqb_spec (ano r) y) as [Hy|Hy].
        -- destruct (Z.eqb_spec (ano_obs o) y); [lia | reflexivity].
        -- apply IH; exact Hs'.
Qed.

Lemma linha_do_ano_fold (y : Z) (dados : list observacao) (rs : list resumo_anual) :
  anos_crescentes rs ->
  linha_do_ano y (fold_left (fun rs o => agrupar o rs) dados rs) =
  acumula_ano y (linha_do_ano y rs) (totais_do_ano y dados).
Proof.
  revert rs; induction dados as [|o dados IH]; intros rs Hs; [reflexivity|].
  simpl; rewrite IH by (now apply agrupar_crescente).
  rewrite linha_do_ano_agrupar by exact Hs.
  unfold totais_do_ano; simpl.
  destruct (Z.eqb (ano_obs o) y); reflexivity.
Qed.

Lemma resumo_crescente (dados : list observacao) : anos_crescentes (resumo dados).
Proof.
  unfold resumo.
  assert (H : forall rs, anos_crescentes rs ->
            anos_crescentes (fold_left (fun rs o => agrupar o rs) dados rs)).
  { induction dados as [|o dados IH]; intros rs Hs; [exact Hs|].
    simpl; apply IH, agrupar_crescente, Hs. }
  apply H; constructor.
Qed.

Lemma linha_do_ano_resumo (y : Z) (dados : list observacao) :
  linha_do_ano y (resumo dados) = acumula_ano y None (totais_do_ano y dados).
Proof.
  unfold resumo; rewrite linha_do_ano_fold; [reflexivity | constructor].
Qed.

Lemma acumula_ano_some (y : Z) (r : resumo_anual) (ts : list R) :
  exists r', acumula_ano y (Some r) ts = Some r' /\
    ano r' = ano r /\
    meses_com_dados r' = (meses_com_dados r + length ts)%nat /\
    total_anual r' = total_anual r + np_sum ts /\
    chuva_maxima r' = fold_left Rmax ts (chuva_maxima r).
Proof.
  revert r; induction ts as [|t ts IH]; intros r.
  - exists r; simpl; repeat split; lia || lra.
  - destruct (IH (passo_ano y (Some r) t)) as [r' [H1 [H2 [H3 [H4 H5]]]]].
    exists r'; simpl in *; repeat split; try assumption.
    + lia.
    + rewrite H4; lra.
Qed.

Lemma fold_Rmax_spec (ts : list R) (m : R) :
  In (fold_left Rmax ts m) (m :: ts) /\
  Forall (fun t => t <= fold_left Rmax ts m) (m :: ts).
Proof.
  revert m; induction ts as [|t ts IH]; intros m; cbn [fold_left].
  - split; [now left | repeat constructor; lra].
  - destruct (IH (Rmax m t)) as [Hin Hall].
    inversion Hall as [|? ? Hmx Hrest]; subst.
    split.
    + destruct Hin as [Hin|Hin]; [|right; right; exact Hin].
      assert (Hmt : Rmax m t = m \/ Rmax m t = t)
        by (unfold Rmax; destruct (Rle_dec m t); auto).
      destruct Hmt as [Hmt|Hmt]; [left | right; left];
        rewrite <- Hin; symmetry; exact Hmt.
    + pose proof (Rmax_l m t); pose proof (Rmax_r m t).
      constructor; [lra|]; constructor; [lra | exact Hrest].
Qed.

(** What [groupby('Ano').agg(sum, max, count)] gives for one year. *)
Lemma linha_do_ano_resumo_spec (y : Z) (dados : list observacao) :
  match totais_do_ano y dados with
  | [] => linha_do_ano y (resumo dados) = None
  | ts => exists r, linha_do_ano y (resumo dados) = Some r /\ ano r = y /\
            meses_com_dados r = length ts /\ total_anual r = np_sum ts /\
            In (chuva_maxima r) ts /\ Forall (fun t => t <= chuva_maxima r) ts
  end.
Proof.
  rewrite linha_do_ano_resumo.
  destruct (totais_do_ano y dados) as [|t ts]; [reflexivity|].
  destruct (acumula_ano_some y (passo_ano y None t) ts)
    as [r [H1 [H2 [H3 [H4 H5]]]]].
  change (acumula_ano y None (t :: ts))
    with (acumula_ano y (Some (passo_ano y None t)) ts).
  rewrite H1; exists r.
  cbn [passo_ano ano total_anual chuva_maxima meses_com_dados] in H2, H3, H4, H5.
  rewrite H5; cbn [length np_sum].
  destruct (fold_Rmax_spec ts t) as [Hin Hall].
  repeat split; try assumption; lra.
Qed.

Lemma in_anos_resumo_fold (dados : list observacao) (rs : list resumo_anual) (y : Z) :
  In y (map ano (fold_left (fun rs o => agrupar o rs) dados rs)) <->
  In y (map ano_obs dados) \/ In y (map ano rs).
Proof.
  revert rs; induction dados as [|o dados IH]; intros rs; simpl; [tauto|].
  rewrite IH, in_anos_agrupar; intuition congruence.
Qed.

Lemma linha_do_ano_in (rs : list resumo_anual) (r : resumo_anual) :
  anos_crescentes rs -> In r rs -> linha_do_ano (ano r) rs = Some r.
Proof.
  unfold anos_crescentes, linha_do_ano.
  induction rs as [|r0 rest IH]; intros Hs Hin; [destruct Hin|].
  inversion Hs as [|? ? Hs' Hr]; subst; simpl.
  destruct Hin as [<-|Hin]; [now rewrite Z.eqb_refl|].
  assert (Hlt : (ano r0 < ano r)%Z)
    by (apply (proj1 (Forall_forall _ _) Hr), in_map, Hin).
  destruct (Z.eqb_spec (ano r0) (ano r)); [lia|].
  now apply IH.
Qed.

Lemma np_sum_nonneg (ts : list R) :
  Forall (fun t => 0 <= t) ts -> 0 <= np_sum ts.
Proof.
  induction 1; simpl; lra.
Qed.

Lemma np_sum_nonneg_elem (ts : list R) (x : R) :
  Forall (fun t => 0 <= t) ts -> In x ts -> 0 <= x <= np_sum ts.
Proof.
  induction ts as [|t ts IH]; intros Hf Hin; [destruct Hin|].
  inversion Hf as [|? ? Ht Hts]; subst; simpl.
  pose proof (np_sum_nonneg ts Hts).
  destruct Hin as [<-|Hin]; [lra|].
  specialize (IH Hts Hin); lra.
Qed.


(** The summary has one row per distinct year of the data, in strictly
    ascending order of year, and no row for a year absent from the data. *)
Theorem resumo_um_por_ano (dados : list observacao) :
  StronglySorted Z.lt (map ano (resumo dados)) /\
  (forall y, In y (map ano (resumo dados)) <-> In y (map ano_obs dados)).
Proof.
  split; [apply resumo_crescente|].
  intros y; unfold resumo; rewrite in_anos_resumo_fold; simpl; tauto.
Qed.

(** For every year [y] present in the data, the row of [y] counts the
    observations of [y], sums their totals and holds their largest total;
    for a year absent from the data there is no row. *)
Theorem resumo_linha_do_ano (y : Z) (dados : list observacao) :
  let ts := totais_do_ano y dados in
  (ts = [] -> linha_do_ano y (resumo dados) = None) /\
  (ts <> [] -> exists r, linha_do_ano y (resumo dados) = Some r /\
     ano r = y /\ meses_com_dados r = length ts /\ total_anual r = np_sum ts /\
     In (chuva_maxima r) ts /\ Forall (fun t => t <= chuva_maxima r) ts).
Proof.
  intros ts; pose proof (linha_do_ano_resumo_spec y dados) as H.
  unfold ts; destruct (totais_do_ano y dados) as [|t l].
  - split; [intros _; exact H | intros Hn; congruence].
  - split; [discriminate | intros _; exact H].
Qed.


(** Every row counts at least one observation, and when no observed total
    is negative its maximum lies between 0 and its annual total. *)
Theorem resumo_linha_invariante (dados : list observacao) (r : resumo_anual) :
  Forall (fun o => 0 <= total_obs o) dados -> In r (resumo dados) ->
  (1 <= meses_com_dados r)%nat /\ 0 <= chuva_maxima r <= total_anual r.
Proof.
  intros Hpos Hin.
  pose proof (linha_do_ano_in _ _ (resumo_crescente dados) Hin) as Hr.
  pose proof (linha_do_ano_resumo_spec (ano r) dados) as H.
  assert (Hts : Forall (fun t => 0 <= t) (totais_do_ano (ano r) dados)).
  { unfold totais_do_ano; apply Forall_map.
    apply Forall_forall; intros o Ho; apply filter_In in Ho as [Ho _].
    exact (proj1 (Forall_forall _ _) Hpos o Ho). }
  destruct (totais_do_ano (ano r) dados) as [|t ts]; [congruence|].
  destruct H as [r' [H1 [_ [H3 [H4 [H5 _]]]]]].
  rewrite Hr in H1; injection H1 as <-.
  rewrite H3; split; [simpl; lia|].
  rewrite H4; apply np_sum_nonneg_elem; assumption.
Qed.

Lemma resumo_linha_invariante_witness :
  let dados := [ {| ano_obs := 2020; total_obs := 10 |};
                 {| ano_obs := 2020; total_obs := 20 |};
                 {| ano_obs := 2021; total_obs := 5 |} ]%Z in
  let d := {| ano := 0; total_anual := 0; chuva_maxima := 0;
              meses_com_dados := 0 |} in
  Forall (fun o => 0 <= total_obs o) dados /\
  In (nth 0 (resumo dados) d) (resumo dados) /\
  (1 <= meses_com_dados (nth 0 (resumo dados) d))%nat /\
  0 <= chuva_maxima (nth 0 (resumo dados) d) <= total_anual (nth 0 (resumo dados) d).
Proof.
  intros dados d.
  assert (Hpos : Forall (fun o => 0 <= total_obs o) dados)
    by (repeat constructor; simpl; lra).
  assert (Hin : In (nth 0 (resumo dados) d) (resumo dados))
    by (apply nth_In; simpl; lia).
  split; [exact Hpos|].
  split; [exact Hin|].
  apply (resumo_linha_invariante dados (nth 0 (resumo dados) d) Hpos Hin).
Defined.

(** ** Year selection *)

Lemma in_insere_ano (y z : Z) (ys : list Z) :
  In z (insere_ano y ys) <-> z = y \/ In z ys.
Proof.
  induction ys as [|y' rest IH]; simpl; [intuition congruence|].
  destruct (Z.eqb_spec y y') as [->|Hne]; simpl; [intuition congruence|].
  destruct (Z.ltb y y'); simpl; [intuition congruence|].
  rewrite IH; intuition congruence.
Qed.

Lemma insere_ano_crescente (y : Z) (ys : list Z) :
  StronglySorted Z.lt ys -> StronglySorted Z.lt (insere_ano y ys).
Proof.
  induction ys as [|y' rest IH]; intros Hs; simpl; [repeat constructor|].
  inversion Hs as [|? ? Hs' Hr]; subst.
  destruct (Z.eqb_spec y y') as [->|Hne]; [exact Hs|].
  destruct (Z.ltb_spec y y') as [Hl|Hl].
  - constructor; [exact Hs|]; constructor; [exact Hl|].
    revert Hr; apply Forall_impl; intros; lia.
  - constructor; [now apply IH|].
    apply Forall_forall; intros z Hz; apply in_insere_ano in Hz as [->|Hz]; [lia|].
    exact (proj1 (Forall_forall _ _) Hr z Hz).
Qed.

Lemma anos_disponiveis_fold (dados : list observacao) (ys : list Z) :
  StronglySorted Z.lt ys ->
  StronglySorted Z.lt (fold_left (fun ys o => insere_ano (ano_obs o) ys) dados ys) /\
  (forall y, In y (fold_left (fun ys o => insere_ano (ano_obs o) ys) dados ys) <->
             In y (map ano_obs dados) \/ In y ys).
Proof.
  revert ys; induction dados as [|o dados IH]; intros ys Hs; simpl.
  - split; [exact Hs | tauto].
  - destruct (IH (insere_ano (ano_obs o) ys) (insere_ano_crescente _ _ Hs))
      as [H1 H2].
    split; [exact H1|]; intros y; rewrite H2, in_insere_ano; intuition congruence.
Qed.

Lemma anos_disponiveis_in (dados : list observacao) (y : Z) :
  In y (anos_disponiveis dados) <-> In y (map ano_obs dados).
Proof.
  unfold anos_disponiveis.
  rewrite (proj2 (anos_disponiveis_fold dados [] (SSorted_nil _))); simpl; tauto.
Qed.

Lemma py_getitem_no_intervalo {A} (l : list A) (i : Z) (d : A) :
  (- Z.of_nat (length l) <= i < Z.of_nat (length l))%Z ->
  py_getitem l i = Some (nth (Z.to_nat (i mod Z.of_nat (length l))) l d).
Proof.
  intros Hi; unfold py_getitem.
  set (n := Z.of_nat (length l)) in *.
  assert (Hn : (0 < n)%Z) by lia.
  destruct (Z.leb_spec 0 i), (Z.ltb_spec i n); simpl; try lia.
  - rewrite Z.mod_small by lia.
    apply nth_error_nth'; lia.
  - destruct (Z.leb_spec (- n) i), (Z.ltb_spec i 0); simpl; try lia.
    replace (i mod n)%Z with (n + i)%Z.
    + apply nth_error_nth'; lia.
    + rewrite <- (Z.mod_small (n + i) n) by lia.
      replace (n + i)%Z with (i + 1 * n)%Z by lia.
      apply Z_mod_plus_full.
Qed.

Lemma py_getitem_fora {A} (l : list A) (i : Z) :
  (i < - Z.of_nat (length l) \/ Z.of_nat (length l) <= i)%Z ->
  py_getitem l i = None.
Proof.
  intros Hi; unfold py_getitem.
  destruct (Z.leb_spec 0 i), (Z.ltb_spec i (Z.of_nat (length l))); simpl;
    try lia;
    destruct (Z.leb_spec (- Z.of_nat (length l)) i), (Z.ltb_spec i 0);
    simpl; try lia; reflexivity.
Qed.

Lemma py_listcomp_sucesso {A B} (f : A -> option B) (g : A -> B) (l : list A) :
  (forall x, In x l -> f x = Some (g x)) -> py_listcomp f l = Some (map g l).
Proof.
  induction l as [|x rest IH]; intros H; [reflexivity|]; simpl.
  rewrite (H x (or_introl eq_refl)), IH; [reflexivity|].
  intros y Hy; apply H; right; exact Hy.
Qed.

Lemma py_listcomp_falha {A B} (f : A -> option B) (l : list A) :
  Exists (fun x => f x = None) l -> py_listcomp f l = None.
Proof.
  induction 1 as [x rest Hx|x rest _ IH]; simpl; [now rewrite Hx|].
  destruct (f x); [now rewrite IH | reflexivity].
Qed.

(** The year typed as number [k] (from 1), Python's negative indices
    included. *)
Lemma selecionar_anos_numeros (dados : list observacao) (ks : list Z) :
  let anos := anos_disponiveis dados in
  let n := Z.of_nat (length anos) in
  Forall (fun k => 1 - n <= k <= n)%Z ks ->
  selecionar_anos dados (Numeros ks) =
  filter (fun o => existsb (Z.eqb (ano_obs o))
            (map (fun k => nth (Z.to_nat ((k - 1) mod n)) anos 0%Z) ks)) dados.
Proof.
  intros anos n Hks; unfold selecionar_anos; fold anos.
  rewrite (py_listcomp_sucesso _ (fun i => nth (Z.to_nat (i mod n)) anos 0%Z)).
  - rewrite map_map; reflexivity.
  - intros i Hi; apply in_map_iff in Hi as [k [<- Hk]].
    apply py_getitem_no_intervalo.
    pose proof (proj1 (Forall_forall _ _) Hks k Hk); unfold n in *; lia.
Qed.

Lemma nth_ultimo_maximo (l : list Z) (z : Z) :
  StronglySorted Z.lt l -> In z l -> (z <= nth (length l - 1) l 0)%Z.
Proof.
  induction l as [|a r IH]; intros Hs Hz; [destruct Hz|].
  inversion Hs as [|? ? Hs' Ha]; subst.
  destruct r as [|b r'].
  - destruct Hz as [<-|[]]; simpl; lia.
  - assert (Hl : forall d : Z, nth (length (a :: b :: r') - 1) (a :: b :: r') d =
                             nth (length (b :: r') - 1) (b :: r') d)
      by (intros d; cbn [length]; rewrite !Nat.sub_succ, !Nat.sub_0_r; reflexivity).
    rewrite Hl.
    assert (Hin : In (nth (length (b :: r') - 1) (b :: r') 0%Z) (b :: r'))
      by (apply nth_In; simpl; lia).
    destruct Hz as [<-|Hz].
    + pose proof (proj1 (Forall_forall _ _) Ha _ Hin); lia.
    + now apply IH.
Qed.

Lemma menos_um_mod (n : Z) : (0 < n)%Z -> ((0 - 1) mod n = n - 1)%Z.
Proof.
  intros Hn.
  rewrite <- (Z.mod_small (n - 1) n) by lia.
  replace (n - 1)%Z with ((0 - 1) + 1 * n)%Z by lia.
  symmetry; apply Z_mod_plus_full.
Qed.

Lemma in_map_ano_obs_filter (f : observacao -> bool) (dados : list observacao) (y : Z) :
  In y (map ano_obs (filter f dados)) <->
  exists o, In o dados /\ f o = true /\ ano_obs o = y.
Proof.
  rewrite in_map_iff; split.
  - intros [o [Hy Ho]]; apply filter_In in Ho as [Ho Hf]; eauto.
  - intros [o [Ho [Hf Hy]]]; exists o; split; [exact Hy|].
    apply filter_In; split; assumption.
Qed.

(** The list of years offered for selection is strictly ascending (no
    year twice) and holds exactly the years that occur in the data. *)
Theorem anos_disponiveis_spec (dados : list observacao) :
  StronglySorted Z.lt (anos_disponiveis dados) /\
  (forall y, In y (anos_disponiveis dados) <-> In y (map ano_obs dados)).
Proof.
  split; [apply (anos_disponiveis_fold dados [] (SSorted_nil _)) | apply anos_disponiveis_in].
Qed.

(** When every typed number [k] lies in [1 - n .. n] ([n] years offered),
    the selection keeps, in their order, exactly the observations whose
    year is the offered year at position [(k - 1) mod n]: [k] in [1 .. n]
    is the [k]-th year, and [k] in [1 - n .. 0] wraps around from the end
    (Python's negative indexing). *)
Theorem selecao_valida (dados : list observacao) (ks : list Z) :
  let anos := anos_disponiveis dados in
  let n := Z.of_nat (length anos) in
  Forall (fun k => 1 - n <= k <= n)%Z ks ->
  forall o, In o (selecionar_anos dados (Numeros ks)) <->
            In o dados /\
            exists k, In k ks /\ ano_obs o = nth (Z.to_nat ((k - 1) mod n)) anos 0%Z.
Proof.
  intros anos n Hks o.
  rewrite (selecionar_anos_numeros dados ks Hks), filter_In, existsb_exists.
  split.
  - intros [Ho [y [Hy Heq]]]; apply in_map_iff in Hy as [k [<- Hk]].
    apply Z.eqb_eq in Heq; eauto.
  - intros [Ho [k [Hk Heq]]]; split; [exact Ho|].
    exists (nth (Z.to_nat ((k - 1) mod n)) anos 0%Z); split.
    + apply in_map_iff; eauto.
    + apply Z.eqb_eq; exact Heq.
Qed.

Lemma selecao_valida_witness :
  let dados := [ {| ano_obs := 2020; total_obs := 10 |};
                 {| ano_obs := 2021; total_obs := 5 |} ]%Z in
  let anos := anos_disponiveis dados in
  let n := Z.of_nat (length anos) in
  Forall (fun k => 1 - n <= k <= n)%Z [0; 1]%Z /\
  (In {| ano_obs := 2021; total_obs := 5 |}%Z (selecionar_anos dados (Numeros [0; 1]%Z)) <->
   In {| ano_obs := 2021; total_obs := 5 |}%Z dados /\
   exists k, In k [0; 1]%Z /\
     ano_obs {| ano_obs := 2021; total_obs := 5 |}%Z =
       nth (Z.to_nat ((k - 1) mod n)) anos 0%Z).
Proof.
  intros dados anos n.
  assert (Hks : Forall (fun k => 1 - n <= k <= n)%Z [0; 1]%Z)
    by (repeat constructor; vm_compute; discriminate).
  split; [exact Hks|].
  apply (selecao_valida dados [0; 1]%Z Hks).
Defined.

(** Typing 0 does not fall back to all years: the index [-1] selects the
    most recent year of the data, and only its observations are kept. *)
Theorem selecao_zero_ano_mais_recente (dados : list observacao) :
  dados <> [] ->
  exists y, In y (map ano_obs dados) /\
    (forall z, In z (map ano_obs dados) -> (z <= y)%Z) /\
    selecionar_anos dados (Numeros [0%Z]) =
      filter (fun o => Z.eqb (ano_obs o) y) dados.
Proof.
  intros Hd.
  destruct (anos_disponiveis_fold dados [] (SSorted_nil _)) as [Hs _].
  fold (anos_disponiveis dados) in Hs.
  assert (Hn : (0 < length (anos_disponiveis dados))%nat).
  { destruct dados as [|o rest]; [congruence|].
    assert (Ho : In (ano_obs o) (anos_disponiveis (o :: rest)))
      by (apply anos_disponiveis_in; left; reflexivity).
    destruct (anos_disponiveis (o :: rest)); [destruct Ho | simpl; lia]. }
  exists (nth (length (anos_disponiveis dados) - 1) (anos_disponiveis dados) 0%Z).
  split; [|split].
  - apply anos_disponiveis_in, nth_In; lia.
  - intros z Hz; apply anos_disponiveis_in in Hz.
    apply nth_ultimo_maximo; assumption.
  - rewrite selecionar_anos_numeros.
    + cbn [map]; rewrite menos_um_mod by lia.
      replace (Z.to_nat (Z.of_nat (length (anos_disponiveis dados)) - 1))
        with (length (anos_disponiveis dados) - 1)%nat by lia.
      apply filter_ext; intros o; simpl; apply Bool.orb_false_r.
    + repeat constructor; lia.
Qed.

Lemma selecao_zero_ano_mais_recente_witness :
  let dados := [ {| ano_obs := 2020; total_obs := 10 |};
                 {| ano_obs := 2021; total_obs := 5 |} ]%Z in
  dados <> [] /\
  exists y, In y (map ano_obs dados) /\
    (forall z, In z (map ano_obs dados) -> (z <= y)%Z) /\
    selecionar_anos dados (Numeros [0%Z]) =
      filter (fun o => Z.eqb (ano_obs o) y) dados.
Proof.
  intros dados.
  assert (Hd : dados <> []) by discriminate.
  split; [exact Hd | apply (selecao_zero_ano_mais_recente dados Hd)].
Defined.

(** An invalid selection keeps all the data: a typed number outside
    [1 - n .. n] ([IndexError]) or a piece that is not an integer
    ([ValueError]) falls back to every year. *)
Theorem selecao_invalida_todos (dados : list observacao) (ks : list Z) :
  let n := Z.of_nat (length (anos_disponiveis dados)) in
  Exists (fun k => k < 1 - n \/ n < k)%Z ks ->
  selecionar_anos dados (Numeros ks) = dados /\
  selecionar_anos dados NaoNumerica = dados.
Proof.
  intros n Hks; split; [|reflexivity].
  unfold selecionar_anos.
  rewrite py_listcomp_falha; [reflexivity|].
  apply Exists_exists in Hks as [k [Hk Hr]].
  apply Exists_exists; exists (k - 1)%Z; split.
  - apply in_map_iff; exists k; split; [reflexivity | exact Hk].
  - apply py_getitem_fora; unfold n in Hr; lia.
Qed.

Lemma selecao_invalida_todos_witness :
  let dados := [ {| ano_obs := 2020; total_obs := 10 |};
                 {| ano_obs := 2021; total_obs := 5 |} ]%Z in
  let n := Z.of_nat (length (anos_disponiveis dados)) in
  Exists (fun k => k < 1 - n \/ n < k)%Z [1; 3]%Z /\
  selecionar_anos dados (Numeros [1; 3]%Z) = dados /\
  selecionar_anos dados NaoNumerica = dados.
Proof.
  intros dados n.
  assert (H : Exists (fun k => k < 1 - n \/ n < k)%Z [1; 3]%Z)
    by (apply Exists_cons_tl, Exists_cons_hd; right; vm_compute; reflexivity).
  split; [exact H | apply (selecao_invalida_todos dados [1; 3]%Z H)].
Defined.

(** Selection then aggregation: after a valid selection, the summary has a
    row for exactly the years chosen by the typed numbers. *)
Theorem resumo_da_selecao (dados : list observacao) (ks : list Z) :
  let anos := anos_disponiveis dados in
  let n := Z.of_nat (length anos) in
  Forall (fun k => 1 - n <= k <= n)%Z ks ->
  forall y, In y (map ano (resumo (selecionar_anos dados (Numeros ks)))) <->
            exists k, In k ks /\ y = nth (Z.to_nat ((k - 1) mod n)) anos 0%Z.
Proof.
  intros anos n Hks y.
  unfold resumo; rewrite in_anos_resumo_fold, (selecionar_anos_numeros dados ks Hks).
  fold anos n; rewrite in_map_ano_obs_filter.
  split.
  - intros [[o [Ho [Hf Hy]]]|[]].
    apply existsb_exists in Hf as [y' [Hy' Heq]].
    apply in_map_iff in Hy' as [k [<- Hk]].
    apply Z.eqb_eq in Heq; exists k; split; [exact Hk | congruence].
  - intros [k [Hk ->]]; left.
    pose proof (proj1 (Forall_forall _ _) Hks k Hk) as Hr; cbv beta in Hr.
    assert (Hlen : (Z.to_nat ((k - 1) mod n) < length anos)%nat).
    { assert (0 < n)%Z by lia.
      pose proof (Z.mod_pos_bound (k - 1) n ltac:(lia)).
      unfold n in *; lia. }
    assert (Hin : In (nth (Z.to_nat ((k - 1) mod n)) anos 0%Z) (map ano_obs dados))
      by (apply anos_disponiveis_in, nth_In; exact Hlen).
    apply in_map_iff in Hin as [o [Hy Ho]].
    exists o; split; [exact Ho|]; split; [|exact Hy].
    apply existsb_exists; exists (ano_obs o); split; [|apply Z.eqb_refl].
    rewrite Hy; apply in_map_iff; exists k; split; [reflexivity | exact Hk].
Qed.

Lemma resumo_da_selecao_witness :
  let dados := [ {| ano_obs := 2020; total_obs := 10 |};
                 {| ano_obs := 2021; total_obs := 5 |} ]%Z in
  let anos := anos_disponiveis dados in
  let n := Z.of_nat (length anos) in
  Forall (fun k => 1 - n <= k <= n)%Z [2]%Z /\
  (In 2021%Z (map ano (resumo (selecionar_anos dados (Numeros [2]%Z)))) <->
   exists k, In k [2]%Z /\ 2021%Z = nth (Z.to_nat ((k - 1) mod n)) anos 0%Z).
Proof.
  intros dados anos n.
  assert (Hks : Forall (fun k => 1 - n <= k <= n)%Z [2]%Z)
    by (repeat constructor; vm_compute; discriminate).
  split; [exact Hks | apply (resumo_da_selecao dados [2]%Z Hks)].
Defined.

(** ** Output file name *)

Lemma py_startswith_app (p l : list ascii) : py_startswith (p ++ l) p = true.
Proof.
  induction p as [|a p IH]; [reflexivity|]; simpl.
  rewrite Ascii.eqb_refl, IH; reflexivity.
Qed.

Lemma py_endswith_app (s suf : list ascii) : py_endswith (s ++ suf) suf = true.
Proof.
  unfold py_endswith; rewrite rev_app_distr; apply py_startswith_app.
Qed.

Lemma py_lower_app (s t : list ascii) : py_lower (s ++ t) = py_lower s ++ py_lower t.
Proof. apply map_app. Qed.

Lemma xlsx_minusculo : py_lower xlsx = xlsx.
Proof. reflexivity. Qed.

Lemma endswith_xlsx_app (s : list ascii) : py_endswith (py_lower (s ++ xlsx)) xlsx = true.
Proof. rewrite py_lower_app, xlsx_minusculo; apply py_endswith_app. Qed.

(** The output name used by [separar_dados_por_ano] always ends in
    '.xlsx' (in any case), and applying the check again changes nothing:
    a name is extended at most once. *)
Theorem separar_extensao_xlsx (arquivo_saida : list ascii) :
  py_endswith (py_lower (separar_extensao arquivo_saida)) xlsx = true /\
  separar_extensao (separar_extensao arquivo_saida) = separar_extensao arquivo_saida.
Proof.
  unfold separar_extensao.
  destruct (py_endswith (py_lower arquivo_saida) xlsx) eqn:He.
  - rewrite He; split; reflexivity.
  - rewrite endswith_xlsx_app; split; reflexivity.
Qed.

(** The name [main] computes always ends in '.xlsx' (in any case), so the
    check of [separar_dados_por_ano] passes it on unchanged and never adds
    a second extension; an empty answer gives 'AnaliseCompleta.xlsx'. *)
Theorem main_arquivo_saida_xlsx (pl : plataforma) (digitado : list ascii) :
  py_endswith (py_lower (main_arquivo_saida pl digitado)) xlsx = true /\
  separar_extensao (main_arquivo_saida pl digitado) = main_arquivo_saida pl digitado /\
  main_arquivo_saida pl [] = saida_padrao.
Proof.
  assert (H : py_endswith (py_lower (main_arquivo_saida pl digitado)) xlsx = true).
  { unfold main_arquivo_saida.
    destruct (py_endswith (py_lower match digitado with [] => saida_padrao
                                    | _ => digitado end) xlsx) eqn:He.
    - exact He.
    - apply endswith_xlsx_app. }
  split; [exact H|]; split; [|reflexivity].
  unfold separar_extensao; rewrite H; reflexivity.
Qed.

Lemma rfind_aux_app (c : ascii) (l1 l2 : list ascii) (i acc : Z) :
  rfind_aux c (l1 ++ l2) i acc =
  rfind_aux c l2 (i + Z.of_nat (length l1)) (rfind_aux c l1 i acc).
Proof.
  revert i acc; induction l1 as [|x l1 IH]; intros i acc; simpl.
  - rewrite Z.add_0_r; reflexivity.
  - rewrite IH; f_equal; lia.
Qed.

Lemma rfind_aux_ausente (c : ascii) (s : list ascii) (i acc : Z) :
  ~ In c s -> rfind_aux c s i acc = acc.
Proof.
  revert i acc; induction s as [|x s IH]; intros i acc Hc; [reflexivity|]; simpl.
  destruct (Ascii.eqb_spec x c) as [->|]; [exfalso; apply Hc; left; reflexivity|].
  apply IH; intros H; apply Hc; right; exact H.
Qed.

(** For a plain file name [base.ext] (no '/' nor '\', not starting with
    a dot, extension without dots) that does not end in '.xlsx', [main]
    replaces the extension ([base.xlsx]) on POSIX and on Windows alike,
    where the check of [separar_dados_por_ano] alone would append one
    ([base.ext.xlsx]). *)
Theorem main_troca_extensao (pl : plataforma) (base ext : list ascii) :
  base <> [] -> hd "."%char base <> "."%char ->
  ~ In "/"%char base -> ~ In "\"%char base ->
  ~ In "."%char ext -> ~ In "/"%char ext -> ~ In "\"%char ext ->
  py_endswith (py_lower (base ++ "."%char :: ext)) xlsx = false ->
  main_arquivo_saida pl (base ++ "."%char :: ext) = base ++ xlsx /\
  separar_extensao (base ++ "."%char :: ext) = base ++ "."%char :: ext ++ xlsx.
Proof.
  intros Hb Hhd Hsb Hbb Hde Hse Hbe He.
  split.
  2:{ unfold separar_extensao; rewrite He, <- app_assoc; reflexivity. }
  assert (Hne : base ++ "."%char :: ext <> []) by (destruct base; discriminate).
  unfold main_arquivo_saida.
  destruct (base ++ "."%char :: ext) as [|c0 s0] eqn:Hs; [congruence|].
  rewrite <- Hs in *; clear c0 s0 Hs.
  rewrite He; f_equal.
  assert (Hdot : rfind "."%char (base ++ "."%char :: ext) = Z.of_nat (length base)).
  { unfold rfind; rewrite rfind_aux_app; simpl.
    rewrite rfind_aux_ausente by exact Hde; lia. }
  assert (Hsep : rfind "/"%char (base ++ "."%char :: ext) = (-1)%Z).
  { unfold rfind; rewrite rfind_aux_app, (rfind_aux_ausente _ base) by exact Hsb.
    apply rfind_aux_ausente; intros [H|H]; [discriminate | exact (Hse H)]. }
  assert (Hbsl : rfind "\"%char (base ++ "."%char :: ext) = (-1)%Z).
  { unfold rfind; rewrite rfind_aux_app, (rfind_aux_ausente _ base) by exact Hbb.
    apply rfind_aux_ausente; intros [H|H]; [discriminate | exact (Hbe H)]. }
  unfold splitext.
  replace (match pl with
           | Posix => rfind "/"%char (base ++ "."%char :: ext)
           | Windows => Z.max (rfind "\"%char (base ++ "."%char :: ext))
                              (rfind "/"%char (base ++ "."%char :: ext))
           end) with (-1)%Z
    by (destruct pl; rewrite ?Hbsl, Hsep; reflexivity).
  rewrite Hdot.
  replace ((-1 <? Z.of_nat (length base))%Z) with true
    by (symmetry; apply Z.ltb_lt; lia).
  replace (Z.to_nat (Z.of_nat (length base) - (-1 + 1))) with (length base) by lia.
  replace (Z.to_nat (-1 + 1)) with 0%nat by lia.
  rewrite Nat2Z.id; cbn [skipn].
  rewrite firstn_app, firstn_all, Nat.sub_diag, app_nil_r.
  destruct base as [|b0 rest]; [congruence|].
  simpl in Hhd; simpl existsb.
  destruct (Ascii.eqb_spec b0 "."%char); [contradiction | reflexivity].
Qed.

Lemma main_troca_extensao_witness :
  let base := ["d"; "a"; "d"; "o"; "s"]%char in
  let ext := ["c"; "s"; "v"]%char in
  (main_arquivo_saida Posix (base ++ "."%char :: ext) = base ++ xlsx /\
   separar_extensao (base ++ "."%char :: ext) = base ++ "."%char :: ext ++ xlsx) /\
  (main_arquivo_saida Windows (base ++ "."%char :: ext) = base ++ xlsx /\
   separar_extensao (base ++ "."%char :: ext) = base ++ "."%char :: ext ++ xlsx).
Proof.
  intros base ext.
  split; apply main_troca_extensao.
  all: first [ discriminate
             | simpl; intuition discriminate
             | vm_compute; reflexivity ].
Defined.

(** ** Per-year sheets *)

Lemma flat_map_filtro_particao (dados : list observacao) (ys : list Z) :
  NoDup ys -> (forall o, In o dados -> In (ano_obs o) ys) ->
  Permutation dados
    (flat_map (fun y => filter (fun o => Z.eqb (ano_obs o) y) dados) ys).
Proof.
  intros Hnd; induction dados as [|o d IH]; intros Hys.
  - induction ys as [|y ys IHys]; [constructor | simpl].
    inversion Hnd; subst; apply IHys; [assumption|].
    intros o [].
  - assert (Hy : In (ano_obs o) ys) by (apply Hys; left; reflexivity).
    apply in_split in Hy as [ys1 [ys2 Hsplit]].
    assert (Hout : ~ In (ano_obs o) (ys1 ++ ys2))
      by (apply (NoDup_remove_2 ys1 ys2); rewrite <- Hsplit; exact Hnd).
    specialize (IH (fun o' Ho' => Hys o' (or_intror Ho'))).
    rewrite Hsplit in IH |- *.
    rewrite !flat_map_app in *; cbn [flat_map filter] in *.
    rewrite Z.eqb_refl.
    assert (Hext : forall zs, ~ In (ano_obs o) zs ->
      flat_map (fun y => filter (fun o' => Z.eqb (ano_obs o') y) (o :: d)) zs =
      flat_map (fun y => filter (fun o' => Z.eqb (ano_obs o') y) d) zs).
    { induction zs as [|z zs IHz]; intros Hz; [reflexivity|]; simpl.
      destruct (Z.eqb_spec (ano_obs o) z) as [Heq|];
        [exfalso; apply Hz; left; symmetry; exact Heq|].
      f_equal; apply IHz; intros H; apply Hz; right; exact H. }
    rewrite !Hext by (intros H; apply Hout, in_or_app; tauto).
    rewrite <- app_comm_cons.
    apply Permutation_cons_app; exact IH.
Qed.

Lemma crescente_NoDup (ys : list Z) : StronglySorted Z.lt ys -> NoDup ys.
Proof.
  induction 1 as [|y ys _ IH Hy]; constructor; [|exact IH].
  intros Hin; pose proof (proj1 (Forall_forall _ _) Hy y Hin); lia.
Qed.

(** The per-year sheets are named by strictly ascending years, hold only
    observations of their own year, and together hold every selected
    observation exactly once. *)
Theorem abas_por_ano_particao (dados_filtrados : list observacao) :
  StronglySorted Z.lt (map fst (abas_por_ano dados_filtrados)) /\
  Forall (fun aba => Forall (fun o => ano_obs o = fst aba) (snd aba))
         (abas_por_ano dados_filtrados) /\
  Permutation dados_filtrados (concat (map snd (abas_por_ano dados_filtrados))).
Proof.
  destruct (anos_disponiveis_fold dados_filtrados [] (SSorted_nil _)) as [Hs _].
  fold (anos_disponiveis dados_filtrados) in Hs.
  unfold abas_por_ano; split; [|split].
  - rewrite map_map; simpl; rewrite map_id; exact Hs.
  - apply Forall_map, Forall_forall; intros y _; simpl.
    apply Forall_forall; intros o Ho; apply filter_In in Ho as [_ Ho].
    apply Z.eqb_eq; exact Ho.
  - rewrite map_map; simpl; rewrite <- flat_map_concat_map.
    apply flat_map_filtro_particao.
    + apply crescente_NoDup; exact Hs.
    + intros o Ho; apply anos_disponiveis_in, in_map; exact Ho.
Qed.
